(** * zigcc-build demo project: the [demo] extension module (demo-project/src/hello.c)

    The translation unit defines one C function, [hello_world], a method
    table [HelloMethods], a module definition [hellomodule] and the
    exported entry point [PyInit_demo].  The greeting returned by
    [hello_world] is picked by the C preprocessor from the macros defined
    for the build.

    The embedding has three layers:
    - [Cpp]: the preprocessor conditionals used by the file;
    - [CPython]: the part of the host runtime the file calls into
      (object store, error indicator, [PyUnicode_FromString],
      [PyModule_Create], the [METH_VARARGS] calling convention and the
      lookup of the [PyInit_<name>] symbol).  The store is unbounded:
      exhaustion of host memory is not represented;
    - [Hello]: the declarations of hello.c, in the order of the file. *)

From Stdlib Require Import ZArith NArith Ascii String.
From stdpp Require Import gmap strings list fin_maps.

Local Open Scope string_scope.

(* ===================================================================== *)
(** ** The preprocessor: [defined], [&&] and [#if]/[#elif]/[#else] *)
(* ===================================================================== *)

Module Cpp.

(** The macros defined at the point of the conditional (from [-D] options
    of the build).  A flag is "set" when its macro is defined, whatever
    its replacement text. *)
Abbreviation macros := (gset string).

Inductive pp_expr : Type :=
| PPDefined (m : string)
| PPAnd (a b : pp_expr).

Fixpoint pp_eval (D : macros) (e : pp_expr) : bool :=
  match e with
  | PPDefined m => bool_decide (m ∈ D)
  | PPAnd a b => pp_eval D a && pp_eval D b
  end.

(** [#if c1 / t1 / #elif c2 / t2 / ... / #else / e / #endif]: the text of
    the first group whose condition holds is kept, the [#else] group
    otherwise; every other group is dropped before compilation. *)
Fixpoint pp_if {A : Type} (D : macros) (groups : list (pp_expr * A)) (els : A) : A :=
  match groups with
  | [] => els
  | (c, t) :: rest => if pp_eval D c then t else pp_if D rest els
  end.

End Cpp.

(* ===================================================================== *)
(** ** The host runtime *)
(* ===================================================================== *)

Module CPython.

(** *** C strings and UTF-8 *)

(** A [const char *] argument is the bytes of the literal followed by the
    terminating NUL the compiler appends. *)
Definition c_literal (s : string) : list N :=
  (N_of_ascii <$> list_ascii_of_string s) ++ [0%N].

(** [strlen]: the bytes before the first NUL. *)
Fixpoint c_string (bs : list N) : list N :=
  match bs with
  | [] => []
  | b :: rest => if (b =? 0)%N then [] else b :: c_string rest
  end.

Definition is_cont (b : N) : bool := ((128 <=? b) && (b <=? 191))%N.

Definition cont (b : N) : N := (b - 128)%N.

(** Strict UTF-8 decoding to code points; [None] on malformed input
    (stray continuation byte, truncated or overlong sequence, surrogate,
    code point above U+10FFFF). *)
Fixpoint utf8_decode (bs : list N) : option (list N) :=
  match bs with
  | [] => Some []
  | b0 :: r0 =>
    if (b0 <? 128)%N then cons b0 <$> utf8_decode r0
    else if ((194 <=? b0) && (b0 <=? 223))%N then
      match r0 with
      | b1 :: r1 =>
        if is_cont b1
        then cons ((b0 - 192) * 64 + cont b1)%N <$> utf8_decode r1
        else None
      | _ => None
      end
    else if ((224 <=? b0) && (b0 <=? 239))%N then
      match r0 with
      | b1 :: b2 :: r2 =>
        if is_cont b1 && is_cont b2
           && (negb (b0 =? 224)%N || (160 <=? b1)%N)
           && (negb (b0 =? 237)%N || (b1 <=? 159)%N)
        then cons ((b0 - 224) * 4096 + cont b1 * 64 + cont b2)%N
               <$> utf8_decode r2
        else None
      | _ => None
      end
    else if ((240 <=? b0) && (b0 <=? 244))%N then
      match r0 with
      | b1 :: b2 :: b3 :: r3 =>
        if is_cont b1 && is_cont b2 && is_cont b3
           && (negb (b0 =? 240)%N || (144 <=? b1)%N)
           && (negb (b0 =? 244)%N || (b1 <=? 143)%N)
        then cons ((b0 - 240) * 262144 + cont b1 * 4096
                   + cont b2 * 64 + cont b3)%N <$> utf8_decode r3
        else None
      | _ => None
      end
    else None
  end.

(** The text of a Python [str]: its code points.  [py_text s] is the [str]
    whose characters are those of the ASCII text [s]. *)
Definition py_text (s : string) : list N :=
  N_of_ascii <$> list_ascii_of_string s.

(** *** Objects, store and error indicator *)

Definition loc := positive.

(** Addresses of the C functions of the extension (values of type
    [PyCFunction]). *)
Inductive funptr : Type :=
| hello_world_addr.

(** [struct PyMethodDef]; a NULL pointer field is [None]. *)
Record PyMethodDef : Type := mkMethodDef {
  ml_name : option string;
  ml_meth : option funptr;
  ml_flags : Z;
  ml_doc : option string
}.

Definition METH_VARARGS : Z := 1.
Definition METH_CLASS : Z := 16.
Definition METH_STATIC : Z := 32.

(** [struct PyModuleDef] after [m_base]; members the initializer leaves
    out are zero-initialized. *)
Record PyModuleDef : Type := mkModuleDef {
  m_name : option string;
  m_doc : option string;
  m_size : Z;
  m_methods : option (list PyMethodDef);
  m_slots : option (list (Z * Z));
  m_traverse : option funptr;
  m_clear : option funptr;
  m_free : option funptr
}.

Inductive PyObj : Type :=
| PyUnicode (text : list N)
| PyTuple (items : list loc)
| PyCFunctionObject (m_ml : PyMethodDef) (m_self : option loc)
| PyModuleObject (md_name : string) (md_dict : gmap string loc)
                 (md_state : option (list N)) (md_def : option PyModuleDef)
| PyOther (tag : N).

Inductive PyExc : Type :=
| UnicodeDecodeError
| TypeError
| ValueError
| SystemError
| ImportError.

Record State : Type := mkState {
  heap : gmap loc PyObj;
  exc : option PyExc
}.

(** A C computation over the host state.  The outer [option] is [None]
    when the C code has no defined behaviour (a read past the end of an
    array, a call through a null or mistyped pointer). *)
Definition Host (A : Type) : Type := State → option (A * State).

Global Instance Host_ret : MRet Host := λ A a st, Some (a, st).

Global Instance Host_bind : MBind Host := λ A B f m st,
  match m st with
  | Some (a, st') => f a st'
  | None => None
  end.

Definition undefined {A : Type} : Host A := λ _, None.

Definition get_heap : Host (gmap loc PyObj) := λ st, Some (heap st, st).

(** [PyErr_SetString] and friends: set the error indicator. *)
Definition PyErr_Set (e : PyExc) : Host unit :=
  λ st, Some ((), mkState (heap st) (Some e)).

Definition PyErr_Occurred : Host (option PyExc) := λ st, Some (exc st, st).

(** Allocation of a new object at an address not in use. *)
Definition alloc (o : PyObj) : Host loc :=
  λ st, let l := fresh (dom (heap st)) in
        Some (l, mkState (<[l := o]> (heap st)) (exc st)).

Definition store (l : loc) (o : PyObj) : Host unit :=
  λ st, Some ((), mkState (<[l := o]> (heap st)) (exc st)).

(** A [PyObject *] result: [None] is NULL. *)
Abbreviation PyObjectPtr := (option loc).

(** *** [PyUnicode_FromString] *)

(** [PyUnicode_FromString(u)]: decode the NUL-terminated buffer [u] as
    UTF-8 into a new [str] object; NULL with the error indicator set when
    the bytes are not valid UTF-8. *)
Definition PyUnicode_FromString (u : list N) : Host PyObjectPtr :=
  match utf8_decode (c_string u) with
  | Some cps => l ← alloc (PyUnicode cps); mret (Some l)
  | None => _ ← PyErr_Set UnicodeDecodeError; mret None
  end.

(** *** Module creation *)

(** Binding of an attribute in a module's dictionary. *)
Definition module_setattr (m : loc) (name : string) (v : loc) : Host unit :=
  h ← get_heap;
  match h !! m with
  | Some (PyModuleObject n d s def) =>
    store m (PyModuleObject n (<[name := v]> d) s def)
  | _ => undefined
  end.

Definition set_md_def (m : loc) (def : PyModuleDef) : Host unit :=
  h ← get_heap;
  match h !! m with
  | Some (PyModuleObject n d s _) => store m (PyModuleObject n d s (Some def))
  | _ => undefined
  end.

(** [PyModule_AddFunctions]: the table is walked up to the entry whose
    [ml_name] is NULL; each entry before it becomes a built-in function
    object bound to the module and stored under [ml_name].  A table with
    no such entry is read past its end.  Returns 0, or -1 with the error
    indicator set. *)
Fixpoint PyModule_AddFunctions (m : loc) (tbl : list PyMethodDef) : Host Z :=
  match tbl with
  | [] => undefined
  | fdef :: rest =>
    match ml_name fdef with
    | None => mret 0%Z
    | Some name =>
      if bool_decide (Z.land (ml_flags fdef) METH_CLASS ≠ 0%Z)
         || bool_decide (Z.land (ml_flags fdef) METH_STATIC ≠ 0%Z)
      then _ ← PyErr_Set ValueError; mret (-1)%Z
      else
        func ← alloc (PyCFunctionObject fdef (Some m));
        _ ← module_setattr m name func;
        PyModule_AddFunctions m rest
    end
  end.

(** [PyModule_SetDocString]. *)
Definition PyModule_SetDocString (m : loc) (doc : string) : Host Z :=
  v ← PyUnicode_FromString (c_literal doc);
  match v with
  | Some l => _ ← module_setattr m "__doc__" l; mret 0%Z
  | None => mret (-1)%Z
  end.

(** [PyModule_Create(def)]: single-phase creation of a module object
    from its definition.  Per-module state is allocated (zeroed) only
    for a positive [m_size]. *)
Definition PyModule_Create (def : PyModuleDef) : Host PyObjectPtr :=
  match m_slots def with
  | Some _ => _ ← PyErr_Set SystemError; mret None
  | None =>
    match m_name def with
    | None => undefined
    | Some name =>
      let state :=
        if (0 <? m_size def)%Z
        then Some (replicate (Z.to_nat (m_size def)) 0%N)
        else None in
      m ← alloc (PyModuleObject name ∅ state None);
      r ← match m_methods def with
          | Some tbl => PyModule_AddFunctions m tbl
          | None => mret 0%Z
          end;
      if bool_decide (r ≠ 0%Z) then mret None
      else
        r' ← match m_doc def with
             | Some doc => PyModule_SetDocString m doc
             | None => mret 0%Z
             end;
        if bool_decide (r' ≠ 0%Z) then mret None
        else _ ← set_md_def m def; mret (Some m)
    end
  end.

(** *** Calls and loading *)

(** The C type [PyCFunction]: a function of [self] and [args], both
    object pointers, to an object pointer. *)
Definition PyCFunction : Type := PyObjectPtr → PyObjectPtr → Host PyObjectPtr.

(** The host's check of what a C function hands back: a result and a
    pending error must not come together, nor both be missing. *)
Definition check_result (r : PyObjectPtr) : Host PyObjectPtr :=
  e ← PyErr_Occurred;
  match r, e with
  | Some l, None => mret (Some l)
  | None, Some _ => mret None
  | _, _ => _ ← PyErr_Set SystemError; mret None
  end.

(** A call of the built-in function object [f] with positional arguments
    [args] and keyword arguments [kwargs].  Under
    [METH_VARARGS] keyword arguments are refused before the C function
    runs; otherwise the positional arguments are packed in a tuple and
    the function gets its bound [self] and the tuple.  The other calling
    conventions are not part of this model. *)
Definition call (code : funptr → PyCFunction) (f : loc)
    (args : list loc) (kwargs : gmap string loc) : Host PyObjectPtr :=
  h ← get_heap;
  match h !! f with
  | Some (PyCFunctionObject ml self) =>
    if bool_decide (ml_flags ml = METH_VARARGS) then
      if bool_decide (kwargs = ∅) then
        match ml_meth ml with
        | Some p =>
          t ← alloc (PyTuple args);
          r ← code p self (Some t);
          check_result r
        | None => undefined
        end
      else _ ← PyErr_Set TypeError; mret None
    else undefined
  | Some _ => _ ← PyErr_Set TypeError; mret None
  | None => undefined
  end.

(** The symbols a shared object exports, by name. *)
Fixpoint dlsym {A : Type} (exports : list (string * A)) (sym : string) : option A :=
  match exports with
  | [] => None
  | (n, a) :: rest => if bool_decide (n = sym) then Some a else dlsym rest sym
  end.

(** Loading the extension [name]: the entry point is the exported symbol
    [PyInit_<name>]; it is called once and its result checked. *)
Definition import_extension (exports : list (string * Host PyObjectPtr))
    (name : string) : Host PyObjectPtr :=
  match dlsym exports ("PyInit_" ++ name) with
  | Some init => r ← init; check_result r
  | None => _ ← PyErr_Set ImportError; mret None
  end.

(** Attribute lookup [m.name] on a module object. *)
Definition module_getattr (st : State) (m : loc) (name : string) : option loc :=
  match heap st !! m with
  | Some (PyModuleObject _ d _ _) => d !! name
  | _ => None
  end.

(** The text of the [str] object at an address. *)
Definition text_at (st : State) (l : loc) : option (list N) :=
  match heap st !! l with
  | Some (PyUnicode t) => Some t
  | _ => None
  end.

(** The text of the [str] a computation returns from state [st]; [None]
    when it is undefined, returns NULL, or returns something else. *)
Definition result_text (c : Host PyObjectPtr) (st : State) : option (list N) :=
  match c st with
  | Some (Some l, st') => text_at st' l
  | _ => None
  end.

(** Bytes that are ASCII characters other than NUL. *)
Definition plain_ascii (bs : list N) : bool :=
  forallb (λ b, (0 <? b)%N && (b <? 128)%N) bs.

(** The entries of a method table: those before the first entry whose
    [ml_name] is NULL. *)
Fixpoint table_entries (tbl : list PyMethodDef) : list PyMethodDef :=
  match tbl with
  | [] => []
  | fdef :: rest =>
    match ml_name fdef with
    | Some _ => fdef :: table_entries rest
    | None => []
    end
  end.

End CPython.

(* ===================================================================== *)
(** ** hello.c *)
(* ===================================================================== *)

Module Hello.

Import Cpp CPython.

Section Build.

(** The macros defined for the build. *)
Variable D : macros.

(** hello.c, lines 3-11.  Both parameters are unused. *)
Definition hello_world (self args : PyObjectPtr) : Host PyObjectPtr :=
  pp_if D
    [ (PPAnd (PPDefined "HELLO_MACRO") (PPDefined "DYNAMIC_MACRO"),
       PyUnicode_FromString
         (c_literal "Hello from Zig CC with Macro and Dynamic Macro!"));
      (PPDefined "HELLO_MACRO",
       PyUnicode_FromString (c_literal "Hello from Zig CC with Macro!")) ]
    (PyUnicode_FromString (c_literal "Hello from Zig CC!")).

(** The string literal left in the body of [hello_world] once the
    conditional groups are resolved. *)
Definition selected_literal : string :=
  pp_if D
    [ (PPAnd (PPDefined "HELLO_MACRO") (PPDefined "DYNAMIC_MACRO"),
       "Hello from Zig CC with Macro and Dynamic Macro!");
      (PPDefined "HELLO_MACRO", "Hello from Zig CC with Macro!") ]
    "Hello from Zig CC!".

(** The code at each function address of the translation unit. *)
Definition code (p : funptr) : PyCFunction :=
  match p with
  | hello_world_addr => hello_world
  end.

End Build.

(** hello.c, lines 13-16. *)
Definition HelloMethods : list PyMethodDef :=
  [ mkMethodDef (Some "world") (Some hello_world_addr) METH_VARARGS
                (Some "Return a greeting.");
    mkMethodDef None None 0%Z None ].

(** hello.c, lines 18-24: [m_base], [m_name], [m_doc], [m_size],
    [m_methods]; the remaining members are zero. *)
Definition hellomodule : PyModuleDef :=
  {| m_name := Some "demo";
     m_doc := None;
     m_size := (-1)%Z;
     m_methods := Some HelloMethods;
     m_slots := None;
     m_traverse := None;
     m_clear := None;
     m_free := None |}.

(** hello.c, lines 26-28. *)
Definition PyInit_demo : Host PyObjectPtr :=
  PyModule_Create hellomodule.

(** Symbols with external linkage: everything else in the file is
    [static]. *)
Definition exports : list (string * Host PyObjectPtr) :=
  [ ("PyInit_demo", PyInit_demo) ].

(** The three greetings of the file. *)
Definition greeting_plain : string := "Hello from Zig CC!".
Definition greeting_macro : string := "Hello from Zig CC with Macro!".
Definition greeting_dynamic : string :=
  "Hello from Zig CC with Macro and Dynamic Macro!".

(** *** Sessions *)

(** What a client of the loaded module can do between two calls of
    [hello_world]: call it again, or anything else, which may change the
    host state at will. *)
Inductive event : Type :=
| CallWorld (self args : PyObjectPtr)
| Other (f : State → State).

(** A session: the events in order, each call from the state the previous
    events left; the result is the text each call returned. *)
Fixpoint run (D : macros) (evs : list event) (st : State)
    : option (list (list N)) :=
  match evs with
  | [] => Some []
  | Other f :: rest => run D rest (f st)
  | CallWorld self args :: rest =>
    match hello_world D self args st with
    | Some (Some l, st') =>
      match text_at st' l with
      | Some t => cons t <$> run D rest st'
      | None => None
      end
    | _ => None
    end
  end.

Fixpoint calls (evs : list event) : nat :=
  match evs with
  | [] => 0
  | CallWorld _ _ :: rest => S (calls rest)
  | Other _ :: rest => calls rest
  end.

(** Successive calls of the built-in function object [f], one per list
    of positional arguments and none with keyword arguments, each from
    the state the previous one left: the texts returned, in order, and
    the final state. *)
Fixpoint call_each (D : macros) (f : loc) (argss : list (list loc))
    (st : State) : option (list (list N) * State) :=
  match argss with
  | [] => Some ([], st)
  | args :: rest =>
    match call (code D) f args ∅ st with
    | Some (Some l, st') =>
      match text_at st' l with
      | Some t =>
        match call_each D f rest st' with
        | Some (ts, st'') => Some (t :: ts, st'')
        | None => None
        end
      | None => None
      end
    | _ => None
    end
  end.

End Hello.

(* ===================================================================== *)
(** ** Properties *)
(* ===================================================================== *)

Import Cpp CPython Hello.

(** *** C strings *)

Lemma plain_ascii_cons b bs :
  plain_ascii (b :: bs) = true →
  (b =? 0)%N = false ∧ (b <? 128)%N = true ∧ plain_ascii bs = true.
Proof.
  unfold plain_ascii; cbn [forallb].
  intros [[Hpos Hlt]%andb_prop Hrest]%andb_prop.
  repeat split; [|done..].
  apply N.eqb_neq. apply N.ltb_lt in Hpos. lia.
Qed.

Lemma c_string_terminated bs :
  plain_ascii bs = true → c_string (bs ++ [0%N]) = bs.
Proof.
  induction bs as [|b bs IH]; [done|].
  intros (Hnz & _ & Hrest)%plain_ascii_cons.
  cbn [app c_string]. rewrite Hnz. f_equal. by apply IH.
Qed.

Lemma utf8_decode_ascii bs :
  plain_ascii bs = true → utf8_decode bs = Some bs.
Proof.
  induction bs as [|b bs IH]; [done|].
  intros (_ & Hlt & Hrest)%plain_ascii_cons.
  cbn [utf8_decode]. rewrite Hlt, (IH Hrest). done.
Qed.

Lemma PyUnicode_FromString_literal s st :
  plain_ascii (py_text s) = true →
  PyUnicode_FromString (c_literal s) st =
    Some (Some (fresh (dom (heap st))),
          mkState (<[fresh (dom (heap st)) := PyUnicode (py_text s)]> (heap st))
                  (exc st)).
Proof.
  intros Hs. unfold PyUnicode_FromString, c_literal.
  fold (py_text s). rewrite (c_string_terminated _ Hs), (utf8_decode_ascii _ Hs).
  done.
Qed.

(** *** The conditional in [hello_world] *)

Lemma pp_if_map {A B : Type} (g : A → B) D groups els :
  g (pp_if D groups els) = pp_if D (prod_map id g <$> groups) (g els).
Proof.
  induction groups as [|[c t] groups IH]; [done|].
  cbn. by destruct (pp_eval D c).
Qed.

Lemma hello_world_literal D self args :
  hello_world D self args = PyUnicode_FromString (c_literal (selected_literal D)).
Proof.
  unfold hello_world, selected_literal.
  by rewrite (pp_if_map (λ s, PyUnicode_FromString (c_literal s))).
Qed.

Lemma selected_literal_cases D :
  selected_literal D =
    if bool_decide ("HELLO_MACRO" ∈ D)
    then if bool_decide ("DYNAMIC_MACRO" ∈ D)
         then greeting_dynamic else greeting_macro
    else greeting_plain.
Proof.
  unfold selected_literal; cbn [pp_if pp_eval].
  by repeat case_bool_decide.
Qed.

Lemma selected_literal_plain D :
  "HELLO_MACRO" ∉ D → selected_literal D = greeting_plain.
Proof.
  intros H. rewrite selected_literal_cases. by rewrite bool_decide_eq_false_2.
Qed.

Lemma selected_literal_macro D :
  "HELLO_MACRO" ∈ D → "DYNAMIC_MACRO" ∉ D →
  selected_literal D = greeting_macro.
Proof.
  intros Ha Hb. rewrite selected_literal_cases.
  by rewrite bool_decide_eq_true_2, bool_decide_eq_false_2.
Qed.

Lemma selected_literal_dynamic D :
  "HELLO_MACRO" ∈ D → "DYNAMIC_MACRO" ∈ D →
  selected_literal D = greeting_dynamic.
Proof.
  intros Ha Hb. rewrite selected_literal_cases.
  by rewrite !bool_decide_eq_true_2.
Qed.

Lemma selected_literal_in D :
  selected_literal D ∈ [greeting_plain; greeting_macro; greeting_dynamic].
Proof.
  rewrite selected_literal_cases.
  repeat case_bool_decide; set_solver.
Qed.

Lemma greetings_plain_ascii s :
  s ∈ [greeting_plain; greeting_macro; greeting_dynamic] →
  plain_ascii (py_text s) = true.
Proof.
  rewrite !elem_of_cons, elem_of_nil.
  intros [->|[->|[->|[]]]]; reflexivity.
Qed.

(** The complete effect of one call: a new [str] holding the selected
    literal is placed at an unused address, which is returned; nothing
    else moves. *)
Lemma hello_world_run D self args st :
  hello_world D self args st =
    Some (Some (fresh (dom (heap st))),
          mkState (<[fresh (dom (heap st)) :=
                       PyUnicode (py_text (selected_literal D))]> (heap st))
                  (exc st)).
Proof.
  rewrite hello_world_literal.
  apply PyUnicode_FromString_literal, greetings_plain_ascii, selected_literal_in.
Qed.

Lemma fresh_unused (h : gmap loc PyObj) : h !! fresh (dom h) = None.
Proof. apply not_elem_of_dom, is_fresh. Qed.

Lemma hello_world_text D self args st :
  result_text (hello_world D self args) st = Some (py_text (selected_literal D)).
Proof.
  unfold result_text, text_at. rewrite hello_world_run; cbn.
  by rewrite lookup_insert_eq.
Qed.

Lemma py_text_inj s1 s2 : py_text s1 = py_text s2 → s1 = s2.
Proof.
  unfold py_text. revert s2.
  induction s1 as [|a s1 IH]; intros [|b s2]; cbn; try done.
  intros [= Hab Hrest]. f_equal; [|by apply IH].
  rewrite <- (ascii_N_embedding a), <- (ascii_N_embedding b). by rewrite Hab.
Qed.

(** *** The greeting, by build configuration *)

(** C1: in every build where HELLO_MACRO is not defined, whether or not
    DYNAMIC_MACRO is, every call of [world] (any [self], any [args], any
    host state) returns a [str] whose text is exactly
    "Hello from Zig CC!". *)
Theorem world_plain_when_hello_macro_undefined D self args st :
  "HELLO_MACRO" ∉ D →
  result_text (hello_world D self args) st = Some (py_text "Hello from Zig CC!").
Proof.
  intros H. by rewrite hello_world_text, selected_literal_plain.
Qed.

Lemma world_plain_witness :
("HELLO_MACRO" ∉ ({["DYNAMIC_MACRO"]} : gset string)) ∧
  result_text (hello_world {["DYNAMIC_MACRO"]} None None) (mkState ∅ None)
    = Some (py_text "Hello from Zig CC!").
Proof.
  assert (Hun : "HELLO_MACRO" ∉ ({["DYNAMIC_MACRO"]} : gset string))
    by (apply not_elem_of_singleton; discriminate).
  split; [exact Hun|].
  exact (world_plain_when_hello_macro_undefined
           {["DYNAMIC_MACRO"]} None None (mkState ∅ None) Hun).
Defined.

(** C2: in every build where both HELLO_MACRO and DYNAMIC_MACRO are
    defined, every call of [world] returns a [str] whose text is exactly
    "Hello from Zig CC with Macro and Dynamic Macro!". *)
Theorem world_dynamic_when_both_defined D self args st :
  "HELLO_MACRO" ∈ D → "DYNAMIC_MACRO" ∈ D →
  result_text (hello_world D self args) st
    = Some (py_text "Hello from Zig CC with Macro and Dynamic Macro!").
Proof.
  intros Ha Hb. by rewrite hello_world_text, selected_literal_dynamic.
Qed.

Lemma world_dynamic_witness :
  result_text
    (hello_world ({["HELLO_MACRO"]} ∪ {["DYNAMIC_MACRO"]}) None (Some 7%positive))
    (mkState {[7%positive := PyTuple []]} None)
    = Some (py_text "Hello from Zig CC with Macro and Dynamic Macro!").
Proof.
  apply (world_dynamic_when_both_defined
           ({["HELLO_MACRO"]} ∪ {["DYNAMIC_MACRO"]})).
  - apply elem_of_union_l, elem_of_singleton. reflexivity.
  - apply elem_of_union_r, elem_of_singleton. reflexivity.
Defined.

(** C3: in every build where HELLO_MACRO is defined and DYNAMIC_MACRO is
    not, every call of [world] returns a [str] whose text is exactly
    "Hello from Zig CC with Macro!". *)
Theorem world_macro_when_only_hello_macro D self args st :
  "HELLO_MACRO" ∈ D → "DYNAMIC_MACRO" ∉ D →
  result_text (hello_world D self args) st
    = Some (py_text "Hello from Zig CC with Macro!").
Proof.
  intros Ha Hb. by rewrite hello_world_text, selected_literal_macro.
Qed.

Lemma world_macro_witness :
  result_text (hello_world {["HELLO_MACRO"]} None None) (mkState ∅ None)
    = Some (py_text "Hello from Zig CC with Macro!").
Proof.
  apply (world_macro_when_only_hello_macro {["HELLO_MACRO"]}).
  - apply elem_of_singleton. reflexivity.
  - apply not_elem_of_singleton. discriminate.
Defined.

(** *** Totality, independence of the inputs, framing *)

Lemma greetings_nonempty s :
  s ∈ [greeting_plain; greeting_macro; greeting_dynamic] → py_text s ≠ [].
Proof.
  rewrite !elem_of_cons, elem_of_nil.
  intros [->|[->|[->|[]]]]; discriminate.
Qed.

(** C4: every call of [world], whatever [self] and the argument tuple
    are and whatever the host state, is defined, returns a non-NULL
    pointer to a [str] with non-empty text, and leaves the error
    indicator as it found it (it raises nothing). *)
Theorem world_always_succeeds D self args st :
  ∃ l st' t,
    hello_world D self args st = Some (Some l, st') ∧
    exc st' = exc st ∧
    heap st' !! l = Some (PyUnicode t) ∧
    t ≠ [].
Proof.
  eexists _, _, _. rewrite hello_world_run.
  split; [reflexivity|]. cbn.
  split; [reflexivity|].
  split; [apply lookup_insert_eq|].
  apply greetings_nonempty, selected_literal_in.
Qed.

(** C5: within one build, the call does not depend on its inputs: from
    one host state, any two [self]/[args] pairs give the same outcome,
    and across any two host states (so whatever the argument objects
    hold) the text returned is the same. *)
Theorem world_ignores_inputs D self1 args1 self2 args2 st1 st2 :
  hello_world D self1 args1 st1 = hello_world D self2 args2 st1 ∧
  ∃ t, result_text (hello_world D self1 args1) st1 = Some t ∧
       result_text (hello_world D self2 args2) st2 = Some t.
Proof.
  split.
  - by rewrite !hello_world_run.
  - exists (py_text (selected_literal D)). by rewrite !hello_world_text.
Qed.

(** C6: within one build there is one text that every call of a session
    returns, however many calls the session makes, wherever they come in
    it and whatever else happens to the host state in between. *)
Theorem world_repeated_calls_agree D :
  ∃ t, ∀ evs st, run D evs st = Some (replicate (calls evs) t).
Proof.
  exists (py_text (selected_literal D)).
  induction evs as [|[self args|f] evs IH]; intros st.
  - reflexivity.
  - pose proof (hello_world_text D self args st) as Htext.
    unfold result_text in Htext. cbn [run calls replicate].
    rewrite hello_world_run in Htext |- *.
    by rewrite Htext, IH.
  - cbn [run calls]. apply IH.
Qed.

(** C7: a call of [world] changes nothing that existed before it: the
    error indicator is the same, the address returned was unused, and
    every other address of the object store holds what it held. *)
Theorem world_frame D self args st :
  ∃ l st',
    hello_world D self args st = Some (Some l, st') ∧
    heap st !! l = None ∧
    exc st' = exc st ∧
    (∀ a, a ≠ l → heap st' !! a = heap st !! a) ∧
    (∀ a o, heap st !! a = Some o → heap st' !! a = Some o).
Proof.
  eexists _, _. rewrite hello_world_run.
  split; [reflexivity|]. cbn.
  split; [apply fresh_unused|].
  split; [reflexivity|].
  split.
  - intros a Ha. by apply lookup_insert_ne.
  - intros a o Ha. rewrite lookup_insert_ne; [done|].
    intros <-. by rewrite fresh_unused in Ha.
Qed.

(** C8: in every build the text returned by [world] is that of exactly
    one of the three literals of the file (which are pairwise distinct),
    and which one is fixed by the two flags alone: any build that agrees
    on whether HELLO_MACRO and DYNAMIC_MACRO are defined returns the
    same text, on every call. *)
Theorem world_one_of_three D self args st :
  NoDup ["Hello from Zig CC!"; "Hello from Zig CC with Macro!";
         "Hello from Zig CC with Macro and Dynamic Macro!"] ∧
  ∃ s,
    s ∈ ["Hello from Zig CC!"; "Hello from Zig CC with Macro!";
         "Hello from Zig CC with Macro and Dynamic Macro!"] ∧
    result_text (hello_world D self args) st = Some (py_text s) ∧
    (∀ s', result_text (hello_world D self args) st = Some (py_text s') →
           s' = s) ∧
    (∀ D' self' args' st',
       ("HELLO_MACRO" ∈ D' ↔ "HELLO_MACRO" ∈ D) →
       ("DYNAMIC_MACRO" ∈ D' ↔ "DYNAMIC_MACRO" ∈ D) →
       result_text (hello_world D' self' args') st' = Some (py_text s)).
Proof.
  split.
  { repeat (apply NoDup_cons; split;
            [rewrite ?elem_of_cons, elem_of_nil; intros H; by intuition|]).
    apply NoDup_nil_2. }
  exists (selected_literal D).
  split; [apply selected_literal_in|].
  split; [apply hello_world_text|].
  split.
  - rewrite hello_world_text. intros s' [= Hs]. symmetry. by apply py_text_inj.
  - intros D' self' args' st' Ha Hb.
    rewrite hello_world_text. do 2 f_equal.
    rewrite !selected_literal_cases.
    by rewrite (bool_decide_ext _ _ Ha), (bool_decide_ext _ _ Hb).
Qed.

Lemma world_one_of_three_witness :
  result_text (hello_world ({["HELLO_MACRO"]} ∪ {["NDEBUG"]}) None None)
              (mkState ∅ (Some TypeError))
    = Some (py_text "Hello from Zig CC with Macro!").
Proof.
  destruct (world_one_of_three {["HELLO_MACRO"]} None None (mkState ∅ None))
    as (_ & s & _ & Hs & _ & Hflags).
  assert (Hsel : selected_literal {["HELLO_MACRO"]} = greeting_macro).
  { apply selected_literal_macro.
    - apply elem_of_singleton. reflexivity.
    - apply not_elem_of_singleton. discriminate. }
  rewrite hello_world_text, Hsel in Hs.
  injection Hs as Hs. apply py_text_inj in Hs. subst s.
  apply Hflags.
  - rewrite elem_of_union, !elem_of_singleton. intuition discriminate.
  - rewrite elem_of_union, !elem_of_singleton. intuition discriminate.
Defined.

(** *** Loading the module and calling [world] by name *)

Lemma bind_run {A B : Type} (c : Host A) (k : A → Host B) st :
  (c ≫= k) st = match c st with Some (a, st') => k a st' | None => None end.
Proof. reflexivity. Qed.

Lemma module_setattr_run m name v st n d s def :
  heap st !! m = Some (PyModuleObject n d s def) →
  module_setattr m name v st =
    Some ((), mkState (<[m := PyModuleObject n (<[name := v]> d) s def]> (heap st))
                      (exc st)).
Proof.
  intros Hm. unfold module_setattr. rewrite bind_run. cbn [get_heap].
  by rewrite Hm.
Qed.

Lemma set_md_def_run m def' st n d s def :
  heap st !! m = Some (PyModuleObject n d s def) →
  set_md_def m def' st =
    Some ((), mkState (<[m := PyModuleObject n d s (Some def')]> (heap st))
                      (exc st)).
Proof.
  intros Hm. unfold set_md_def. rewrite bind_run. cbn [get_heap].
  by rewrite Hm.
Qed.

(** The walk over [HelloMethods] creates one function object and binds it
    under "world"; it stops at the second entry, inside the table. *)
Lemma AddFunctions_HelloMethods m st n d s def :
  heap st !! m = Some (PyModuleObject n d s def) →
  PyModule_AddFunctions m HelloMethods st =
    Some (0%Z,
          mkState
            (<[m := PyModuleObject n (<["world" := fresh (dom (heap st))]> d) s def]>
               (<[fresh (dom (heap st)) :=
                    PyCFunctionObject
                      (mkMethodDef (Some "world") (Some hello_world_addr)
                                   METH_VARARGS (Some "Return a greeting."))
                      (Some m)]> (heap st)))
            (exc st)).
Proof.
  intros Hm. unfold HelloMethods.
  cbn [PyModule_AddFunctions ml_name ml_flags].
  replace (bool_decide (Z.land METH_VARARGS METH_CLASS ≠ 0%Z)
           || bool_decide (Z.land METH_VARARGS METH_STATIC ≠ 0%Z)) with false
    by reflexivity.
  rewrite bind_run. unfold alloc at 1. cbv beta zeta.
  rewrite bind_run.
  erewrite module_setattr_run; [reflexivity|].
  cbn [heap]. rewrite lookup_insert_ne; [exact Hm|].
  intros Heq. pose proof (fresh_unused (heap st)) as Hf.
  rewrite Heq, Hm in Hf. discriminate.
Qed.

(** The complete effect of the init function: two new objects, the module
    and the function object of its one method, each bound to the other. *)
Lemma PyInit_demo_run st :
  ∃ m f st',
    PyInit_demo st = Some (Some m, st') ∧
    heap st !! m = None ∧ heap st !! f = None ∧ m ≠ f ∧
    exc st' = exc st ∧
    heap st' =
      <[m := PyModuleObject "demo" {["world" := f]} None (Some hellomodule)]>
        (<[f := PyCFunctionObject
                  (mkMethodDef (Some "world") (Some hello_world_addr)
                               METH_VARARGS (Some "Return a greeting."))
                  (Some m)]> (heap st)).
Proof.
  set (m := fresh (dom (heap st))).
  set (h1 := <[m := PyModuleObject "demo" ∅ None None]> (heap st)).
  set (f := fresh (dom h1)).
  assert (Hm : heap st !! m = None) by apply fresh_unused.
  assert (Hf1 : h1 !! f = None) by apply fresh_unused.
  assert (Hmf : m ≠ f).
  { intros Heq. rewrite <- Heq in Hf1. unfold h1 in Hf1.
    by rewrite lookup_insert_eq in Hf1. }
  assert (Hf : heap st !! f = None).
  { unfold h1 in Hf1. by rewrite lookup_insert_ne in Hf1. }
  exists m, f. eexists. split.
  - unfold PyInit_demo, PyModule_Create.
    cbn [hellomodule m_slots m_name m_size m_methods m_doc Z.ltb Z.compare].
    rewrite bind_run. unfold alloc at 1. cbv beta zeta. fold m. fold h1.
    rewrite bind_run.
    erewrite (AddFunctions_HelloMethods m); [|cbn [heap]; apply lookup_insert_eq].
    cbn [heap exc]. fold f.
    replace (bool_decide (0%Z ≠ 0%Z)) with false by reflexivity.
    rewrite !bind_run. cbn [mret Host_ret].
    replace (bool_decide (0%Z ≠ 0%Z)) with false by reflexivity.
    rewrite bind_run.
    erewrite set_md_def_run; [reflexivity|].
    cbn [heap]. apply lookup_insert_eq.
  - repeat split; try done.
    cbn [heap]. unfold h1.
    rewrite !insert_insert_eq.
    rewrite (insert_insert_ne _ f m) by done.
    rewrite insert_insert_eq. reflexivity.
Qed.

Lemma call_world D f self args st :
  heap st !! f =
    Some (PyCFunctionObject
            (mkMethodDef (Some "world") (Some hello_world_addr)
                         METH_VARARGS (Some "Return a greeting."))
            self) →
  exc st = None →
  ∃ l st', call (code D) f args ∅ st = Some (Some l, st') ∧
    exc st' = None ∧
    text_at st' l = Some (py_text (selected_literal D)).
Proof.
  intros Hf He. unfold call. rewrite bind_run. cbn [get_heap]. rewrite Hf.
  cbn [ml_flags ml_meth code].
  rewrite !bool_decide_eq_true_2 by done.
  rewrite bind_run. unfold alloc at 1. cbv beta zeta.
  rewrite bind_run, hello_world_run. cbn [heap exc].
  unfold check_result. rewrite bind_run. cbn [PyErr_Occurred exc]. rewrite He.
  eexists _, _. split; [reflexivity|]. split; [done|].
  unfold text_at. cbn [heap]. by rewrite lookup_insert_eq.
Qed.

Lemma call_keywords_refused (code : funptr → PyCFunction) f ml self args kwargs st :
  heap st !! f = Some (PyCFunctionObject ml self) →
  ml_flags ml = METH_VARARGS →
  kwargs ≠ ∅ →
  call code f args kwargs st = Some (None, mkState (heap st) (Some TypeError)).
Proof.
  intros Hf Hfl Hkw. unfold call. rewrite bind_run. cbn [get_heap]. rewrite Hf.
  rewrite bool_decide_eq_true_2 by done.
  rewrite bool_decide_eq_false_2 by done.
  reflexivity.
Qed.

(** C9: loading the extension "demo" (from a host state with no pending
    error) runs the exported init function and nothing else, and right
    after it the module object has an attribute "world" holding a
    built-in function object made from the "world" entry of the method
    table; that entry points at [hello_world], and a call of the
    attribute with any positional arguments returns the greeting of the
    build. *)
Theorem world_registered_after_load D st :
  exc st = None →
  ∃ m f st',
    import_extension exports "demo" st = Some (Some m, st') ∧
    PyInit_demo st = Some (Some m, st') ∧
    exc st' = None ∧
    module_getattr st' m "world" = Some f ∧
    heap st' !! f =
      Some (PyCFunctionObject
              (mkMethodDef (Some "world") (Some hello_world_addr)
                           METH_VARARGS (Some "Return a greeting."))
              (Some m)) ∧
    mkMethodDef (Some "world") (Some hello_world_addr)
                METH_VARARGS (Some "Return a greeting.") ∈ HelloMethods ∧
    code D hello_world_addr = hello_world D ∧
    ∀ args,
      result_text (call (code D) f args ∅) st'
        = Some (py_text (selected_literal D)) ∧
      result_text (call (code D) f args ∅) st'
        = result_text (hello_world D (Some m) None) st'.
Proof.
  intros He.
  destruct (PyInit_demo_run st) as (m & f & st' & Hrun & _ & _ & Hmf & He' & Hh).
  rewrite He in He'.
  assert (Hfun : heap st' !! f =
            Some (PyCFunctionObject
                    (mkMethodDef (Some "world") (Some hello_world_addr)
                                 METH_VARARGS (Some "Return a greeting."))
                    (Some m))).
  { rewrite Hh, lookup_insert_ne by done. apply lookup_insert_eq. }
  exists m, f, st'. repeat split; try done.
  - unfold import_extension.
    replace (dlsym exports ("PyInit_" ++ "demo")) with (Some PyInit_demo)
      by reflexivity.
    rewrite bind_run, Hrun. unfold check_result.
    rewrite bind_run. cbn [PyErr_Occurred]. by rewrite He'.
  - unfold module_getattr. rewrite Hh, lookup_insert_eq.
    apply lookup_singleton_eq.
  - unfold HelloMethods. apply list_elem_of_here.
  - destruct (call_world D f (Some m) args st' Hfun He')
      as (l & st'' & Hcall & _ & Htext).
    unfold result_text. by rewrite Hcall.
  - rewrite hello_world_text.
    destruct (call_world D f (Some m) args st' Hfun He')
      as (l & st'' & Hcall & _ & Htext).
    unfold result_text. by rewrite Hcall.
Qed.

Lemma world_registered_witness :
  exc (mkState ∅ None) = None ∧
  ∃ m f st',
    import_extension exports "demo" (mkState ∅ None) = Some (Some m, st') ∧
    module_getattr st' m "world" = Some f ∧
    result_text (call (code {["HELLO_MACRO"]}) f [m; f] ∅) st'
      = Some (py_text "Hello from Zig CC with Macro!").
Proof.
  split; [reflexivity|].
  destruct (world_registered_after_load {["HELLO_MACRO"]} (mkState ∅ None) eq_refl)
    as (m & f & st' & Himp & _ & _ & Hattr & _ & _ & _ & Hcall).
  exists m, f, st'. split; [exact Himp|]. split; [exact Hattr|].
  destruct (Hcall [m; f]) as [-> _]. f_equal.
Defined.

(** C10: the only exported symbol is [PyInit_demo], the entry point of
    the module named "demo", and the module object it creates carries
    that name; the method table is the "world" entry flagged
    [METH_VARARGS] followed by the all-NULL entry, so it has exactly one
    method; under that flag a call with keyword arguments is refused by
    the host with a TypeError before [hello_world] runs; [m_size] is -1
    and no per-module state is allocated. *)
Theorem demo_module_layout :
  exports = [("PyInit_demo", PyInit_demo)] ∧
  dlsym exports ("PyInit_" ++ "demo") = Some PyInit_demo ∧
  m_name hellomodule = Some "demo" ∧
  m_methods hellomodule = Some HelloMethods ∧
  HelloMethods =
    [ mkMethodDef (Some "world") (Some hello_world_addr) METH_VARARGS
                  (Some "Return a greeting.");
      mkMethodDef None None 0%Z None ] ∧
  table_entries HelloMethods =
    [ mkMethodDef (Some "world") (Some hello_world_addr) 1%Z
                  (Some "Return a greeting.") ] ∧
  (∀ D f self args kwargs st,
     heap st !! f =
       Some (PyCFunctionObject
               (mkMethodDef (Some "world") (Some hello_world_addr)
                            METH_VARARGS (Some "Return a greeting."))
               self) →
     kwargs ≠ ∅ →
     call (code D) f args kwargs st
       = Some (None, mkState (heap st) (Some TypeError))) ∧
  m_size hellomodule = (-1)%Z ∧
  (∀ st, ∃ m st' d,
     PyInit_demo st = Some (Some m, st') ∧
     heap st' !! m = Some (PyModuleObject "demo" d None (Some hellomodule))).
Proof.
  repeat split.
  - intros D f self args kwargs st Hf Hkw.
    by apply (call_keywords_refused _ _ _ _ _ _ _ Hf).
  - intros st.
    destruct (PyInit_demo_run st) as (m & f & st' & Hrun & _ & _ & _ & _ & Hh).
    exists m, st', {["world" := f]}. split; [exact Hrun|].
    rewrite Hh. apply lookup_insert_eq.
Qed.

Lemma demo_module_layout_witness :
  call (code ∅) 1%positive [] {["name" := 2%positive]}
       (mkState
          {[1%positive :=
              PyCFunctionObject
                (mkMethodDef (Some "world") (Some hello_world_addr)
                             METH_VARARGS (Some "Return a greeting."))
                None]}
          None)
    = Some (None,
            mkState
              {[1%positive :=
                  PyCFunctionObject
                    (mkMethodDef (Some "world") (Some hello_world_addr)
                                 METH_VARARGS (Some "Return a greeting."))
                    None]}
              (Some TypeError)).
Proof.
  destruct demo_module_layout as (_ & _ & _ & _ & _ & _ & Hkw & _).
  apply (Hkw ∅ 1%positive None [] {["name" := 2%positive]}).
  - apply lookup_singleton_eq.
  - apply map_non_empty_singleton.
Defined.

(* ===================================================================== *)
(** ** Further properties of hello.c *)
(* ===================================================================== *)

(** *** New objects *)

(** X1: [hello_world] hands out a new object on every call: two calls in
    a row return different addresses, the first object is still there
    after the second call, and both hold the same text. *)
Theorem hello_world_new_object_each_call D self1 args1 self2 args2 st :
  ∃ l1 st1 l2 st2 t,
    hello_world D self1 args1 st = Some (Some l1, st1) ∧
    hello_world D self2 args2 st1 = Some (Some l2, st2) ∧
    l1 ≠ l2 ∧
    heap st !! l1 = None ∧ heap st !! l2 = None ∧
    text_at st2 l1 = Some t ∧ text_at st2 l2 = Some t.
Proof.
  set (l1 := fresh (dom (heap st))).
  set (h1 := <[l1 := PyUnicode (py_text (selected_literal D))]> (heap st)).
  set (l2 := fresh (dom h1)).
  assert (H1 : heap st !! l1 = None) by apply fresh_unused.
  assert (H2 : h1 !! l2 = None) by apply fresh_unused.
  assert (Hne : l1 ≠ l2).
  { intros Heq. rewrite <- Heq in H2. unfold h1 in H2.
    by rewrite lookup_insert_eq in H2. }
  exists l1, (mkState h1 (exc st)), l2.
  eexists _, (py_text (selected_literal D)).
  split; [apply hello_world_run|].
  split; [apply hello_world_run|].
  split; [exact Hne|].
  split; [exact H1|].
  split.
  { unfold h1 in H2. by rewrite lookup_insert_ne in H2. }
  unfold text_at; cbn [heap]. fold l2. split.
  - rewrite lookup_insert_ne by done. unfold h1. by rewrite lookup_insert_eq.
  - by rewrite lookup_insert_eq.
Qed.

(** *** The init function *)


(** *** Loading under another name *)




(** *** Calling by name, again and again *)

(** One call through the function object: the argument tuple and the
    result are new objects; nothing that existed is touched. *)
Lemma call_world_step D f self args st :
  heap st !! f =
    Some (PyCFunctionObject
            (mkMethodDef (Some "world") (Some hello_world_addr)
                         METH_VARARGS (Some "Return a greeting."))
            self) →
  exc st = None →
  ∃ l st',
    call (code D) f args ∅ st = Some (Some l, st') ∧
    exc st' = None ∧
    text_at st' l = Some (py_text (selected_literal D)) ∧
    (∀ a o, heap st !! a = Some o → heap st' !! a = Some o).
Proof.
  intros Hf He. unfold call. rewrite bind_run. cbn [get_heap]. rewrite Hf.
  cbn [ml_flags ml_meth code].
  rewrite !bool_decide_eq_true_2 by done.
  rewrite bind_run. unfold alloc at 1. cbv beta zeta.
  rewrite bind_run, hello_world_run. cbn [heap exc].
  unfold check_result. rewrite bind_run. cbn [PyErr_Occurred exc]. rewrite He.
  eexists _, _. split; [reflexivity|]. split; [done|].
  unfold text_at. cbn [heap]. split; [by rewrite lookup_insert_eq|].
  intros a o Ha.
  set (t := fresh (dom (heap st))).
  set (h1 := <[t := PyTuple args]> (heap st)).
  assert (Ha1 : h1 !! a = Some o).
  { unfold h1. rewrite lookup_insert_ne; [done|].
    intros <-. unfold t in Ha. by rewrite fresh_unused in Ha. }
  rewrite lookup_insert_ne; [done|].
  intros <-. by rewrite fresh_unused in Ha1.
Qed.

Lemma call_each_run D f self argss :
  ∀ st,
    heap st !! f =
      Some (PyCFunctionObject
              (mkMethodDef (Some "world") (Some hello_world_addr)
                           METH_VARARGS (Some "Return a greeting."))
              self) →
    exc st = None →
    ∃ st',
      call_each D f argss st
        = Some (replicate (length argss) (py_text (selected_literal D)), st') ∧
      exc st' = None ∧
      (∀ a o, heap st !! a = Some o → heap st' !! a = Some o).
Proof.
  induction argss as [|args argss IH]; intros st Hf He.
  - exists st. by repeat split.
  - destruct (call_world_step D f self args st Hf He)
      as (l & st1 & Hcall & He1 & Htext & Hkeep).
    destruct (IH st1 (Hkeep _ _ Hf) He1) as (st2 & Hrest & He2 & Hkeep2).
    exists st2. cbn [call_each length replicate].
    rewrite Hcall, Htext, Hrest.
    repeat split; [done|]. intros a o Ha. by apply Hkeep2, Hkeep.
Qed.

Lemma import_demo_run st :
  exc st = None →
  ∀ m st', PyInit_demo st = Some (Some m, st') → exc st' = None →
  import_extension exports "demo" st = Some (Some m, st').
Proof.
  intros He m st' Hrun He'. unfold import_extension.
  replace (dlsym exports ("PyInit_" ++ "demo")) with (Some PyInit_demo)
    by reflexivity.
  rewrite bind_run, Hrun. unfold check_result.
  rewrite bind_run. cbn [PyErr_Occurred]. by rewrite He'.
Qed.

(** X4: once the module is loaded, [world] stays callable through its
    function object: any number of calls in a row, each with any
    positional arguments, all succeed and return the text of the build,
    no error is left pending, "world" is still bound to the same
    function object afterwards, and whatever was in the object store
    before the load is still there unchanged. *)
Theorem world_stays_callable D st argss :
  exc st = None →
  ∃ m f st1 st2,
    import_extension exports "demo" st = Some (Some m, st1) ∧
    module_getattr st1 m "world" = Some f ∧
    call_each D f argss st1
      = Some (replicate (length argss) (py_text (selected_literal D)), st2) ∧
    exc st2 = None ∧
    module_getattr st2 m "world" = Some f ∧
    heap st2 !! f = heap st1 !! f ∧
    (∀ a o, heap st !! a = Some o → heap st2 !! a = Some o).
Proof.
  intros He.
  destruct (PyInit_demo_run st)
    as (m & f & st1 & Hrun & Hm & Hf & Hmf & He1 & Hh).
  rewrite He in He1.
  assert (Hfun : heap st1 !! f =
            Some (PyCFunctionObject
                    (mkMethodDef (Some "world") (Some hello_world_addr)
                                 METH_VARARGS (Some "Return a greeting."))
                    (Some m))).
  { rewrite Hh, lookup_insert_ne by done. apply lookup_insert_eq. }
  assert (Hmod : heap st1 !! m =
            Some (PyModuleObject "demo" {["world" := f]} None (Some hellomodule))).
  { rewrite Hh. apply lookup_insert_eq. }
  destruct (call_each_run D f (Some m) argss st1 Hfun He1)
    as (st2 & Heach & He2 & Hkeep).
  exists m, f, st1, st2.
  split; [by apply import_demo_run|].
  split; [unfold module_getattr; rewrite Hmod; apply lookup_singleton_eq|].
  split; [exact Heach|].
  split; [exact He2|].
  split; [unfold module_getattr; rewrite (Hkeep _ _ Hmod);
          apply lookup_singleton_eq|].
  split; [by rewrite (Hkeep _ _ Hfun)|].
  intros a o Ha. apply Hkeep. rewrite Hh.
  rewrite !lookup_insert_ne; [done|intros <-..]; congruence.
Qed.

Lemma world_stays_callable_witness :
  exc (mkState {[3%positive := PyOther 0]} None) = None ∧
  ∃ m f st1 st2,
    import_extension exports "demo" (mkState {[3%positive := PyOther 0]} None)
      = Some (Some m, st1) ∧
    module_getattr st1 m "world" = Some f ∧
    call_each {["HELLO_MACRO"]} f [[]; [3%positive]; [3%positive; 9%positive]] st1
      = Some (replicate 3 (py_text (selected_literal {["HELLO_MACRO"]})), st2) ∧
    heap st2 !! 3%positive = Some (PyOther 0).
Proof.
  split; [reflexivity|].
  destruct (world_stays_callable {["HELLO_MACRO"]}
              (mkState {[3%positive := PyOther 0]} None)
              [[]; [3%positive]; [3%positive; 9%positive]] eq_refl)
    as (m & f & st1 & st2 & Himp & Hattr & Heach & _ & _ & _ & Hkeep).
  exists m, f, st1, st2.
  split; [exact Himp|]. split; [exact Hattr|]. split; [exact Heach|].
  apply Hkeep. apply lookup_singleton_eq.
Defined.

(** *** The wording of the greetings *)

(** X5: whatever the build, the text [world] returns starts with
    "Hello from Zig CC" and ends with "!": the flags only choose what
    stands in between. *)
Theorem world_text_shape D self args st :
  ∃ mid,
    result_text (hello_world D self args) st
      = Some (py_text ("Hello from Zig CC" ++ mid ++ "!")).
Proof.
  rewrite hello_world_text, selected_literal_cases.
  repeat case_bool_decide.
  - by exists " with Macro and Dynamic Macro".
  - by exists " with Macro".
  - by exists "".
Qed.
